(** * Random initial parameters for the CV neural-network templates

    A shallow embedding of [pennylane/templates/parameters.py]: the two
    functions [parameters_cvqnnlayers] and [parameters_cvqnnlayer], which
    draw parameter arrays from NumPy's process-wide generator.

    Conventions of the embedding.
    - Python integers are [Z]; [//] is [Z.div] (both round towards minus
      infinity for a positive divisor).
    - Array elements and the distribution arguments are binary64 numbers,
      Rocq's primitive [float]: [*], [+] and [-] round as NumPy's do.
    - An [ndarray] is its shape tuple together with its elements in
      row-major order.
    - [np.random] is not part of the repository: it is a parameter of the
      development (record [numpy_random]).  One property of it is built into
      the record: seeding installs a state that depends on the seed alone.
      Every other property a theorem relies on is a hypothesis of that
      theorem.
    - The source calls [np.random.rnd].  NumPy's [random] module has no
      attribute of that name: evaluating it raises [AttributeError].  This is
      the hypothesis [rnd_is_missing], and what the reference environment
      [Ref.numpy] does.
    - The generator is process-wide state: a call is a function from the
      generator state to an outcome and the state left behind.
    - The default values of the keyword arguments are not modelled: a call
      passes all of them. *)

From Stdlib Require Import ZArith List Bool Lia Floats Uint63.
Import ListNotations.
Open Scope Z_scope.

(** ** Outcomes of a call *)

(** The Python exceptions that can leave the two functions.  The source
    raises none itself; these are the ones [np.random] raises. *)
Inductive exn : Type :=
| ValueError
| TypeError
| AttributeError.

(** The exceptions by which Python reports an argument of an invalid value
    or type. *)
Definition invalid_argument (e : exn) : bool :=
  match e with
  | ValueError | TypeError => true
  | AttributeError => false
  end.

Inductive result (A : Type) : Type :=
| Ok (a : A)
| Raise (e : exn).
Arguments Ok {A} a.
Arguments Raise {A} e.

Definition map_result {A B : Type} (f : A -> B) (r : result A) : result B :=
  match r with
  | Ok a => Ok (f a)
  | Raise e => Raise e
  end.

Definition is_ok {A : Type} (r : result A) : bool :=
  match r with
  | Ok _ => true
  | Raise _ => false
  end.

(** ** Arrays *)

Record ndarray : Type := mk_ndarray {
  shape : list Z;
  data : list float
}.

(** Number of elements requested by a [size=] tuple. *)
Definition size_product (sz : list Z) : Z := fold_right Z.mul 1 sz.

(** [arr * k] and [arr + c] with a Python scalar on the right: NumPy
    broadcasts the scalar over every element and keeps the shape. *)
Definition ndarray_mul (a : ndarray) (k : float) : ndarray :=
  {| shape := shape a; data := map (fun v => v * k)%float (data a) |}.

Definition ndarray_add (a : ndarray) (c : float) : ndarray :=
  {| shape := shape a; data := map (fun v => v + c)%float (data a) |}.

(** Views used by the statements: the elements of an array flattened, and
    an array seen under another shape. *)
Definition ravel (a : ndarray) : list float := data a.
Definition reshape (sh : list Z) (a : ndarray) : ndarray :=
  {| shape := sh; data := data a |}.

(** ** The part of [np.random] the source calls *)

Record numpy_random : Type := {
  rng : Type;
  (** [np.random.seed(v)]: the state installed by seeding with [v], which
      depends on [v] alone, or the exception raised for a refused seed. *)
  np_seed : Z -> result rng;
  (** [np.random.normal(loc=, scale=, size=)]. *)
  np_normal : float -> float -> list Z -> rng -> result ndarray * rng;
  (** What evaluating [np.random.rnd(size=)] does. *)
  np_rnd : list Z -> rng -> result ndarray * rng
}.

(** ** Calls against the process-wide generator *)

Definition M (S A : Type) : Type := S -> result A * S.

Definition ret {S A : Type} (a : A) : M S A := fun s => (Ok a, s).

Definition bind {S A B : Type} (m : M S A) (k : A -> M S B) : M S B :=
  fun s =>
    match m s with
    | (Ok a, s') => k a s'
    | (Raise e, s') => (Raise e, s')
    end.

Declare Scope call_scope.
Delimit Scope call_scope with call.
Notation "x <- m ;; k" := (bind m (fun x => k))
  (at level 100, m at next level, right associativity) : call_scope.
Notation "m ;;; k" := (bind m (fun _ => k))
  (at level 100, right associativity) : call_scope.

Fixpoint mapM {S A B : Type} (f : A -> M S B) (l : list A) : M S (list B) :=
  match l with
  | [] => ret []
  | x :: xs => (y <- f x ;; ys <- mapM f xs ;; ret (y :: ys))%call
  end.

(** The interaction count [n_modes*(n_modes-1)//2] both functions compute. *)
Definition n_if (n_modes : Z) : Z := n_modes * (n_modes - 1) / 2.

Section Generator.

Variable np : numpy_random.

(** [if seed is not None: np.random.seed(seed)].  A refused seed raises
    before the generator is touched. *)
Definition reseed (seed : option Z) : M (rng np) unit :=
  fun s =>
    match seed with
    | None => (Ok tt, s)
    | Some v =>
        match np_seed np v with
        | Ok s' => (Ok tt, s')
        | Raise e => (Raise e, s)
        end
    end.

Definition parameters_cvqnnlayers (n_layers n_modes : Z)
    (uniform_min uniform_max mean std : float) (seed : option Z)
    : M (rng np) (list ndarray) :=
  (reseed seed ;;;
   let n_if := n_if n_modes in
   let interval := (uniform_max - uniform_min)%float in
   theta_1 <- np_normal np mean std [n_layers; n_if] ;;
   phi_1 <- np_normal np mean std [n_layers; n_if] ;;
   varphi_1 <- np_normal np mean std [n_layers; n_modes] ;;
   r0 <- np_rnd np [n_layers; n_modes] ;;
   let r := ndarray_add (ndarray_mul r0 interval) uniform_min in
   phi_r <- np_normal np mean std [n_layers; n_modes] ;;
   theta_2 <- np_normal np mean std [n_layers; n_if] ;;
   phi_2 <- np_normal np mean std [n_layers; n_if] ;;
   varphi_2 <- np_normal np mean std [n_layers; n_modes] ;;
   a0 <- np_rnd np [n_layers; n_modes] ;;
   let a := ndarray_add (ndarray_mul a0 interval) uniform_min in
   phi_a <- np_normal np mean std [n_layers; n_modes] ;;
   k0 <- np_rnd np [n_layers; n_modes] ;;
   let k := ndarray_add (ndarray_mul k0 interval) uniform_min in
   ret [theta_1; phi_1; varphi_1; r; phi_r; theta_2; phi_2; varphi_2;
        a; phi_a; k])%call.

Definition parameters_cvqnnlayer (n_modes : Z)
    (uniform_min uniform_max mean std : float) (seed : option Z)
    : M (rng np) (list ndarray) :=
  (reseed seed ;;;
   let n_if := n_if n_modes in
   let interval := (uniform_max - uniform_min)%float in
   theta_1 <- np_normal np mean std [n_if] ;;
   phi_1 <- np_normal np mean std [n_if] ;;
   varphi_1 <- np_normal np mean std [n_modes] ;;
   r0 <- np_rnd np [n_modes] ;;
   let r := ndarray_add (ndarray_mul r0 interval) uniform_min in
   phi_r <- np_normal np mean std [n_modes] ;;
   theta_2 <- np_normal np mean std [n_if] ;;
   phi_2 <- np_normal np mean std [n_if] ;;
   varphi_2 <- np_normal np mean std [n_modes] ;;
   a0 <- np_rnd np [n_modes] ;;
   let a := ndarray_add (ndarray_mul a0 interval) uniform_min in
   phi_a <- np_normal np mean std [n_modes] ;;
   k0 <- np_rnd np [n_modes] ;;
   let k := ndarray_add (ndarray_mul k0 interval) uniform_min in
   ret [theta_1; phi_1; varphi_1; r; phi_r; theta_2; phi_2; varphi_2;
        a; phi_a; k])%call.

End Generator.

(** ** The role table of the specification

    The specification describes the output as eleven roles, each with a
    distribution and a dimension kind.  [generate] follows those words: it
    walks the table and draws one array per role.  It is compared with the
    two source functions in [layers_refines_table] and
    [layer_refines_table]. *)

Inductive distribution : Type := NormalD | UniformD.
Inductive dim_kind : Type := PerPair | PerMode.

Definition roles : list (distribution * dim_kind) :=
  [ (NormalD, PerPair);   (* 0  theta_1  *)
    (NormalD, PerPair);   (* 1  phi_1    *)
    (NormalD, PerMode);   (* 2  varphi_1 *)
    (UniformD, PerMode);  (* 3  r        *)
    (NormalD, PerMode);   (* 4  phi_r    *)
    (NormalD, PerPair);   (* 5  theta_2  *)
    (NormalD, PerPair);   (* 6  phi_2    *)
    (NormalD, PerMode);   (* 7  varphi_2 *)
    (UniformD, PerMode);  (* 8  a        *)
    (NormalD, PerMode);   (* 9  phi_a    *)
    (UniformD, PerMode)   (* 10 k        *) ].

Definition role_dim (n_modes : Z) (k : dim_kind) : Z :=
  match k with
  | PerPair => n_if n_modes
  | PerMode => n_modes
  end.

Section RoleTable.

Variable np : numpy_random.
(** How a trailing dimension becomes a [size=] tuple: [(n_layers, d)]
    for the stack, [(d,)] for a single layer. *)
Variable size_of : Z -> list Z.
Variables (n_modes : Z) (uniform_min uniform_max mean std : float).

Definition draw_role (r : distribution * dim_kind) : M (rng np) ndarray :=
  let sz := size_of (role_dim n_modes (snd r)) in
  match fst r with
  | NormalD => np_normal np mean std sz
  | UniformD =>
      (u <- np_rnd np sz ;;
       ret (ndarray_add (ndarray_mul u (uniform_max - uniform_min)%float)
              uniform_min))%call
  end.

Definition generate (seed : option Z) : M (rng np) (list ndarray) :=
  (reseed np seed ;;; mapM draw_role roles)%call.

(** The first three statements after the seeding, run from [s0]: the draws
    of [theta_1], [phi_1] and [varphi_1], all served, ending in [s3]. *)
Definition first_three_draws (s0 : rng np)
    (theta_1 phi_1 varphi_1 : ndarray) (s3 : rng np) : Prop :=
  exists s1 s2,
    np_normal np mean std (size_of (n_if n_modes)) s0 = (Ok theta_1, s1) /\
    np_normal np mean std (size_of (n_if n_modes)) s1 = (Ok phi_1, s2) /\
    np_normal np mean std (size_of n_modes) s2 = (Ok varphi_1, s3).

(** What is left of a call once those three arrays are drawn: the eight
    remaining roles, from the fourth statement on. *)
Definition from_fourth_statement (theta_1 phi_1 varphi_1 : ndarray)
    : M (rng np) (list ndarray) :=
  (rest <- mapM draw_role (skipn 3 roles) ;;
   ret (theta_1 :: phi_1 :: varphi_1 :: rest))%call.

End RoleTable.

Definition stack_size (n_layers d : Z) : list Z := [n_layers; d].
Definition single_size (d : Z) : list Z := [d].

(** ** Contracts of the environment

    Each is a property of [np.random] as the source calls it.  None is
    assumed globally: a theorem lists the ones it needs. *)

(** A request for shape [(1, d)] consumes the generator exactly as a
    request for [(d,)] does and yields the same elements in the same
    order. *)
Definition leading_one_flat {S : Type}
    (f : list Z -> S -> result ndarray * S) : Prop :=
  forall d s,
    f [1; d] s =
    (map_result (reshape [1; d]) (fst (f [d] s)), snd (f [d] s)).

(** A request with a negative dimension is refused before anything is
    drawn: the sampler raises and leaves the generator as it was. *)
Definition refuses_negative {S : Type}
    (f : list Z -> S -> result ndarray * S) : Prop :=
  forall sz s, Exists (fun d => d < 0) sz -> exists e, f sz s = (Raise e, s).

(** The request for size [sz] is served, whatever state the generator is
    in. *)
Definition serves {S : Type}
    (f : list Z -> S -> result ndarray * S) (sz : list Z) : Prop :=
  forall s, exists a s', f sz s = (Ok a, s').

(** [np.random] has no attribute [rnd]: evaluating [np.random.rnd] raises
    [AttributeError] and the generator is not touched. *)
Definition rnd_is_missing (np : numpy_random) : Prop :=
  forall sz s, np_rnd np sz s = (Raise AttributeError, s).

(** A seed the generator takes: none at all, or one [np.random.seed]
    does not refuse. *)
Definition seed_accepted (np : numpy_random) (seed : option Z) : Prop :=
  match seed with
  | None => True
  | Some v => exists s, np_seed np v = Ok s
  end.




(** ** A reference environment

    An executable instance of [numpy_random], used to run the two functions
    on concrete inputs.  It keeps what the statements below depend on in
    NumPy's behaviour:
    - [np.random] has no attribute [rnd];
    - [normal] refuses a negative [scale], a [size=] tuple with a negative
      entry, and one whose non-zero entries multiply to more bytes than a
      signed 64-bit count holds, each with [ValueError] and before anything
      is drawn (running out of memory is not modelled);
    - a seed outside [0, 2^32) is refused with [ValueError];
    - a request for [n] elements advances the generator [n] times, filling
      the array in row-major order.
    The numbers themselves come from a linear congruential step: they stand
    for the draws, not for their distribution. *)

Module Ref.

Record state : Type := mk_state {
  word : Z;    (** the generator word *)
  drawn : Z    (** deviates produced since the state was installed *)
}.

Definition modulus : Z := 2147483648.

Definition step (s : state) : state :=
  {| word := (1103515245 * word s + 12345) mod modulus;
     drawn := drawn s + 1 |}.

(** One deviate standing for a standard normal draw, in [-1, 1). *)
Definition next_gauss (s : state) : float * state :=
  let s' := step s in
  ((of_uint63 (Uint63.of_Z (word s')) / 1073741824 - 1)%float, s').

Fixpoint fill (n : nat) (draw : state -> float * state) (s : state)
    : list float * state :=
  match n with
  | O => ([], s)
  | Datatypes.S n' =>
      let (v, s1) := draw s in
      let (vs, s2) := fill n' draw s1 in
      (v :: vs, s2)
  end.

Definition scale_refused (scale : float) : bool :=
  negb (is_nan scale) && get_sign scale.

Definition size_ok (sz : list Z) : bool :=
  forallb (Z.leb 0) sz &&
  (8 * size_product (filter (fun d => negb (d =? 0)) sz)
   <? 9223372036854775808).

Definition normal (loc scale : float) (sz : list Z) (s : state)
    : result ndarray * state :=
  if scale_refused scale then (Raise ValueError, s)
  else if size_ok sz then
    let (vs, s') :=
      fill (Z.to_nat (size_product sz))
        (fun s0 => let (g, s1) := next_gauss s0 in
                   ((loc + scale * g)%float, s1)) s in
    (Ok {| shape := sz; data := vs |}, s')
  else (Raise ValueError, s).

Definition seed (v : Z) : result state :=
  if (0 <=? v) && (v <? 4294967296) then
    Ok {| word := v mod modulus; drawn := 0 |}
  else Raise ValueError.

Definition numpy : numpy_random :=
  {| rng := state; np_seed := seed; np_normal := normal;
     np_rnd := fun _ s => (Raise AttributeError, s) |}.

Definition fresh : state := {| word := 1; drawn := 0 |}.

End Ref.

(** * Properties *)

(** ** Calls *)



(** ** The source functions walk the role table *)

Ltac run_calls np :=
  repeat match goal with
    | |- context [np_normal np ?l ?c ?z ?s] =>
        destruct (np_normal np l c z s) as [[? | ?] ?]; cbn
    | |- context [np_rnd np ?z ?s] =>
        destruct (np_rnd np z s) as [[? | ?] ?]; cbn
    end.

Lemma layers_refines_table np n_layers n_modes umin umax mean std seed s :
  parameters_cvqnnlayers np n_layers n_modes umin umax mean std seed s =
  generate np (stack_size n_layers) n_modes umin umax mean std seed s.
Proof.
  unfold parameters_cvqnnlayers, generate, bind.
  destruct (reseed np seed s) as [[[] | e] s0]; [| reflexivity].
  cbn. unfold bind, ret, stack_size. run_calls np; reflexivity.
Qed.

Lemma layer_refines_table np n_modes umin umax mean std seed s :
  parameters_cvqnnlayer np n_modes umin umax mean std seed s =
  generate np single_size n_modes umin umax mean std seed s.
Proof.
  unfold parameters_cvqnnlayer, generate, bind.
  destruct (reseed np seed s) as [[[] | e] s0]; [| reflexivity].
  cbn. unfold bind, ret, single_size. run_calls np; reflexivity.
Qed.


Lemma reseed_accepted np seed s :
  seed_accepted np seed -> exists s0, reseed np seed s = (Ok tt, s0).
Proof.
  destruct seed as [v |]; cbn.
  - intros [s0 ->]. exists s0. reflexivity.
  - intros _. exists s. reflexivity.
Qed.

(** ** The first three draws and the fourth statement *)

Lemma roles_split :
  roles = (NormalD, PerPair) :: (NormalD, PerPair) :: (NormalD, PerMode)
          :: skipn 3 roles.
Proof. reflexivity. Qed.

(** Once the seeding and the first three draws have succeeded, a walk is
    what is left of it from the fourth statement on. *)
Lemma generate_after_three
    np size_of n_modes umin umax mean std seed s s0 theta_1 phi_1 varphi_1 s3 :
  reseed np seed s = (Ok tt, s0) ->
  first_three_draws np size_of n_modes mean std s0 theta_1 phi_1 varphi_1 s3 ->
  generate np size_of n_modes umin umax mean std seed s
  = from_fourth_statement np size_of n_modes umin umax mean std
      theta_1 phi_1 varphi_1 s3.
Proof.
  intros Hs0 (s1 & s2 & H1 & H2 & H3).
  unfold generate, from_fourth_statement, bind at 1. rewrite Hs0.
  rewrite roles_split at 1. cbn [mapM].
  unfold bind at 1. unfold draw_role at 1. cbn [fst snd role_dim]. rewrite H1.
  unfold bind at 1. unfold bind at 1. unfold draw_role at 1.
  cbn [fst snd role_dim]. rewrite H2.
  unfold bind at 1. unfold bind at 1. unfold draw_role at 1.
  cbn [fst snd role_dim]. rewrite H3.
  unfold bind, ret.
  destruct (mapM _ (skipn 3 roles) s3) as [[rest | e] s4]; reflexivity.
Qed.

(** Without [np.random.rnd], what is left from the fourth statement on is
    the [AttributeError] of that statement. *)
Lemma fourth_statement_raises
    np size_of n_modes umin umax mean std theta_1 phi_1 varphi_1 s3 :
  rnd_is_missing np ->
  from_fourth_statement np size_of n_modes umin umax mean std
    theta_1 phi_1 varphi_1 s3
  = (Raise AttributeError, s3).
Proof.
  intros Hrnd. unfold from_fourth_statement.
  change (skipn 3 roles) with ((UniformD, PerMode) :: skipn 4 roles).
  cbn [mapM]. unfold bind at 1 2. unfold draw_role at 1. cbn [fst snd].
  unfold bind at 1. rewrite Hrnd. reflexivity.
Qed.

Lemma three_draws_exist np size_of n_modes mean std s0 :
  serves (np_normal np mean std) (size_of (n_if n_modes)) ->
  serves (np_normal np mean std) (size_of n_modes) ->
  exists theta_1 phi_1 varphi_1 s3,
    first_three_draws np size_of n_modes mean std s0 theta_1 phi_1 varphi_1 s3.
Proof.
  intros Hpair Hmode.
  destruct (Hpair s0) as (t1 & s1 & H1).
  destruct (Hpair s1) as (p1 & s2 & H2).
  destruct (Hmode s2) as (v1 & s3 & H3).
  exists t1, p1, v1, s3, s1, s2. repeat split; assumption.
Qed.

(** With the seeding taken and the two sizes of the call served, a walk
    without [np.random.rnd] stops at the fourth statement. *)
Lemma generate_stops_at_rnd np size_of n_modes umin umax mean std seed s :
  rnd_is_missing np -> seed_accepted np seed ->
  serves (np_normal np mean std) (size_of (n_if n_modes)) ->
  serves (np_normal np mean std) (size_of n_modes) ->
  exists s0 theta_1 phi_1 varphi_1 s3,
    reseed np seed s = (Ok tt, s0) /\
    first_three_draws np size_of n_modes mean std s0 theta_1 phi_1 varphi_1 s3
    /\
    generate np size_of n_modes umin umax mean std seed s
    = (Raise AttributeError, s3).
Proof.
  intros Hrnd Hseed Hpair Hmode.
  destruct (reseed_accepted np seed s Hseed) as (s0 & Hs0).
  destruct (three_draws_exist np size_of n_modes mean std s0 Hpair Hmode)
    as (t1 & p1 & v1 & s3 & H3).
  exists s0, t1, p1, v1, s3. split; [exact Hs0 | split; [exact H3 |]].
  rewrite (generate_after_three _ _ _ _ _ _ _ _ _ _ _ _ _ _ Hs0 H3).
  apply fourth_statement_raises. exact Hrnd.
Qed.

(** Without [np.random.rnd] a walk never returns. *)
Lemma generate_never_returns np size_of n_modes umin umax mean std seed s :
  rnd_is_missing np ->
  is_ok (fst (generate np size_of n_modes umin umax mean std seed s)) = false.
Proof.
  intros Hrnd. unfold generate, bind.
  destruct (reseed np seed s) as [[[] | e] s0]; [| reflexivity].
  change roles with
    ((NormalD, PerPair) :: (NormalD, PerPair) :: (NormalD, PerMode)
     :: (UniformD, PerMode) :: skipn 4 roles).
  cbn [mapM]. unfold bind, draw_role. cbn [fst snd].
  repeat match goal with
    | |- context [np_normal np ?l ?c ?z ?s] =>
        destruct (np_normal np l c z s) as [[? | ?] ?]; cbn
    end; try reflexivity.
  unfold bind. rewrite Hrnd. reflexivity.
Qed.

(** ** The reference environment meets the contracts *)

Lemma ref_rnd_is_missing : rnd_is_missing Ref.numpy.
Proof. intros sz s. reflexivity. Qed.

Lemma ref_rnd_leading_one_flat : leading_one_flat (np_rnd Ref.numpy).
Proof. intros d s. reflexivity. Qed.

Lemma ref_normal_ok loc scale sz s :
  Ref.scale_refused scale = false -> Ref.size_ok sz = true ->
  Ref.normal loc scale sz s
  = (Ok {| shape := sz;
           data := fst (Ref.fill (Z.to_nat (size_product sz))
                          (fun s0 => let (g, s1) := Ref.next_gauss s0 in
                                     ((loc + scale * g)%float, s1)) s) |},
     snd (Ref.fill (Z.to_nat (size_product sz))
            (fun s0 => let (g, s1) := Ref.next_gauss s0 in
                       ((loc + scale * g)%float, s1)) s)).
Proof.
  intros Hscale Hsize. unfold Ref.normal. rewrite Hscale, Hsize.
  destruct (Ref.fill _ _ s) as [vs s']. reflexivity.
Qed.

Lemma ref_normal_serves loc scale sz :
  Ref.scale_refused scale = false -> Ref.size_ok sz = true ->
  serves (Ref.normal loc scale) sz.
Proof.
  intros Hscale Hsize s. eexists _, _. apply ref_normal_ok; assumption.
Qed.

Lemma ref_size_negative sz :
  Exists (fun d => d < 0) sz -> Ref.size_ok sz = false.
Proof.
  intros Hneg. unfold Ref.size_ok.
  assert (forallb (Z.leb 0) sz = false) as ->; [| reflexivity].
  apply not_true_is_false. intros Hall.
  apply Exists_exists in Hneg. destruct Hneg as (d & Hd & Hlt).
  pose proof (proj1 (forallb_forall _ _) Hall d Hd) as Hle.
  apply Z.leb_le in Hle. lia.
Qed.

Lemma ref_normal_refuses_negative loc scale :
  refuses_negative (Ref.normal loc scale).
Proof.
  intros sz s Hneg. exists ValueError. unfold Ref.normal.
  rewrite (ref_size_negative sz Hneg).
  destruct (Ref.scale_refused scale); reflexivity.
Qed.

Lemma ref_normal_leading_one_flat loc scale :
  leading_one_flat (Ref.normal loc scale).
Proof.
  intros d s. unfold Ref.normal.
  destruct (Ref.scale_refused scale); [reflexivity |].
  assert (Ref.size_ok [1; d] = Ref.size_ok [d]) as ->.
  { unfold Ref.size_ok. cbn [forallb filter].
    replace (0 <=? 1) with true by reflexivity.
    replace (negb (1 =? 0)) with true by reflexivity.
    cbn [andb size_product fold_right]. rewrite Z.mul_1_l. reflexivity. }
  assert (size_product [1; d] = size_product [d]) as ->
    by (cbn [size_product fold_right]; apply Z.mul_1_l).
  destruct (Ref.size_ok [d]); [| reflexivity].
  destruct (Ref.fill _ _ s) as [vs s']. reflexivity.
Qed.

Lemma ref_fill_drawn draw :
  (forall s, Ref.drawn (snd (draw s)) = Ref.drawn s + 1) ->
  forall n s,
    Ref.drawn (snd (Ref.fill n draw s)) = Ref.drawn s + Z.of_nat n.
Proof.
  intros Hdraw. induction n as [| n IH]; intros s.
  - cbn. lia.
  - cbn [Ref.fill]. pose proof (Hdraw s) as H1.
    destruct (draw s) as [v s1]. specialize (IH s1).
    destruct (Ref.fill n draw s1) as [vs s2]. cbn [snd] in *. lia.
Qed.

(** A served request for [sz] advances the generator by as many deviates
    as [sz] has elements. *)
Lemma ref_normal_drawn loc scale sz s a s' :
  Forall (Z.le 0) sz ->
  Ref.normal loc scale sz s = (Ok a, s') ->
  Ref.drawn s' = Ref.drawn s + size_product sz.
Proof.
  intros Hnn. unfold Ref.normal.
  destruct (Ref.scale_refused scale); [discriminate |].
  destruct (Ref.size_ok sz); [| discriminate].
  pose proof (ref_fill_drawn
                (fun s0 => let (g, s1) := Ref.next_gauss s0 in
                           ((loc + scale * g)%float, s1))
                (fun s0 => eq_refl) (Z.to_nat (size_product sz)) s) as Hd.
  destruct (Ref.fill _ _ s) as [vs s2]. cbn [snd] in Hd.
  intros H. injection H as _ <-. rewrite Hd, Z2Nat.id; [reflexivity |].
  clear - Hnn. induction Hnn as [| d ds Hd _ IH]; cbn; [lia |].
  apply Z.mul_nonneg_nonneg; assumption.
Qed.

(** ** Seeding *)

(** Whatever follows a reseeding with an actual seed does not see the state
    the generator had before. *)
Lemma reseed_forgets np {A : Type} (k : unit -> M (rng np) A) v s s' :
  fst (bind (reseed np (Some v)) k s) = fst (bind (reseed np (Some v)) k s') /\
  (is_ok (np_seed np v) = true ->
   bind (reseed np (Some v)) k s = bind (reseed np (Some v)) k s').
Proof.
  unfold bind, reseed.
  destruct (np_seed np v) as [s0 | e]; cbn; split; try reflexivity.
  discriminate.
Qed.

Lemma layers_forgets_state np n_layers n_modes umin umax mean std v s s' :
  fst (parameters_cvqnnlayers np n_layers n_modes umin umax mean std
         (Some v) s)
  = fst (parameters_cvqnnlayers np n_layers n_modes umin umax mean std
           (Some v) s').
Proof. unfold parameters_cvqnnlayers. apply reseed_forgets. Qed.

Lemma layer_forgets_state np n_modes umin umax mean std v s s' :
  fst (parameters_cvqnnlayer np n_modes umin umax mean std (Some v) s)
  = fst (parameters_cvqnnlayer np n_modes umin umax mean std (Some v) s').
Proof. unfold parameters_cvqnnlayer. apply reseed_forgets. Qed.

(** A walk with a seed that is taken is the table walked from the state
    the seeding installs; with a seed that is refused it is the seeding's
    exception, the generator untouched. *)
Lemma generate_seeded np size_of n_modes umin umax mean std v s :
  match np_seed np v with
  | Ok s0 =>
      generate np size_of n_modes umin umax mean std (Some v) s
      = mapM (draw_role np size_of n_modes umin umax mean std) roles s0
  | Raise e =>
      generate np size_of n_modes umin umax mean std (Some v) s
      = (Raise e, s)
  end.
Proof.
  unfold generate, bind, reseed.
  destruct (np_seed np v) as [s0 | e]; reflexivity.
Qed.

(** ** The interaction count *)

Lemma consecutive_product_even n : (n * (n - 1)) mod 2 = 0.
Proof.
  rewrite Z.mul_mod by lia.
  replace ((n - 1) mod 2) with ((n + 1) mod 2).
  - pose proof (Z.mod_pos_bound n 2 ltac:(lia)) as Hb.
    rewrite <- (Z.add_mod_idemp_l n 1 2) by lia.
    assert (n mod 2 = 0 \/ n mod 2 = 1) as [-> | ->] by lia; reflexivity.
  - replace (n + 1) with (n - 1 + 1 * 2) by lia.
    apply Z.mod_add. lia.
Qed.

Lemma n_if_double n : 2 * n_if n = n * (n - 1).
Proof.
  unfold n_if. symmetry.
  apply Z.div_exact; [lia | apply consecutive_product_even].
Qed.

Lemma fold_add_shift (l : list Z) (z : Z) :
  fold_right Z.add z l = fold_right Z.add 0 l + z.
Proof. induction l as [| x xs IH]; cbn; [reflexivity | rewrite IH; lia]. Qed.

(** ** One layer of the stack against the single layer *)

Lemma mapM_ravel {S A : Type} (f g : A -> M S ndarray) :
  (forall x s,
     map_result ravel (fst (f x s)) = map_result ravel (fst (g x s)) /\
     snd (f x s) = snd (g x s)) ->
  forall l s,
    map_result (map ravel) (fst (mapM f l s))
    = map_result (map ravel) (fst (mapM g l s)) /\
    snd (mapM f l s) = snd (mapM g l s).
Proof.
  intros Hfg. induction l as [| x xs IH]; intros s.
  - split; reflexivity.
  - cbn [mapM]. unfold bind, ret.
    destruct (Hfg x s) as [Hv Hs].
    destruct (f x s) as [[a | e] s1], (g x s) as [[b | e'] s1'];
      cbn [fst snd map_result] in Hv, Hs; try discriminate Hv; subst s1'.
    + destruct (IH s1) as [IHv IHs].
      destruct (mapM f xs s1) as [[as' | e] s2],
               (mapM g xs s1) as [[bs | e'] s2'];
        cbn [fst snd map_result] in IHv, IHs |- *;
        try discriminate IHv; subst s2'.
      * injection Hv as Hv. injection IHv as IHv.
        split; [cbn [map]; rewrite Hv, IHv |]; reflexivity.
      * injection IHv as ->. split; reflexivity.
    + injection Hv as ->. split; reflexivity.
Qed.

Lemma draw_role_leading_one np n_modes umin umax mean std r s :
  (forall loc sc, leading_one_flat (np_normal np loc sc)) ->
  leading_one_flat (np_rnd np) ->
  map_result ravel
    (fst (draw_role np (stack_size 1) n_modes umin umax mean std r s))
  = map_result ravel
      (fst (draw_role np single_size n_modes umin umax mean std r s)) /\
  snd (draw_role np (stack_size 1) n_modes umin umax mean std r s)
  = snd (draw_role np single_size n_modes umin umax mean std r s).
Proof.
  intros Hnormal Hrnd. unfold draw_role, stack_size, single_size.
  destruct (fst r).
  - rewrite Hnormal.
    destruct (np_normal np mean std [role_dim n_modes (snd r)] s)
      as [[a | e] s1]; split; reflexivity.
  - unfold bind. rewrite Hrnd.
    destruct (np_rnd np [role_dim n_modes (snd r)] s)
      as [[a | e] s1]; split; reflexivity.
Qed.

(** ** What the uniform bounds do not touch *)




(** * Claims *)

(** ** The call does not return *)

(** C1 (not met by the code).  The claim has each function return eleven
    arrays.  [np.random] has no [rnd]: whenever the seed is taken and the
    normal sampler serves the two sizes of the call, as for every positive
    [n_modes] and [n_layers], the three first arrays are drawn and the call
    raises [AttributeError] at the fourth statement, in the state those
    three draws left.  Nothing is returned. *)
Theorem call_raises_at_fourth_statement
    np n_layers n_modes umin umax mean std seed s :
  rnd_is_missing np -> seed_accepted np seed ->
  serves (np_normal np mean std) [n_layers; n_if n_modes] ->
  serves (np_normal np mean std) [n_layers; n_modes] ->
  serves (np_normal np mean std) [n_if n_modes] ->
  serves (np_normal np mean std) [n_modes] ->
  (exists s0 theta_1 phi_1 varphi_1 s3,
     reseed np seed s = (Ok tt, s0) /\
     first_three_draws np (stack_size n_layers) n_modes mean std
       s0 theta_1 phi_1 varphi_1 s3 /\
     parameters_cvqnnlayers np n_layers n_modes umin umax mean std seed s
     = (Raise AttributeError, s3)) /\
  (exists s0 theta_1 phi_1 varphi_1 s3,
     reseed np seed s = (Ok tt, s0) /\
     first_three_draws np single_size n_modes mean std
       s0 theta_1 phi_1 varphi_1 s3 /\
     parameters_cvqnnlayer np n_modes umin umax mean std seed s
     = (Raise AttributeError, s3)).
Proof.
  intros Hrnd Hseed Hsp Hsm Hp Hm. split.
  - rewrite layers_refines_table.
    exact (generate_stops_at_rnd np (stack_size n_layers) n_modes
             umin umax mean std seed s Hrnd Hseed Hsp Hsm).
  - rewrite layer_refines_table.
    exact (generate_stops_at_rnd np single_size n_modes
             umin umax mean std seed s Hrnd Hseed Hp Hm).
Qed.

Lemma call_raises_at_fourth_statement_witness :
  (exists s0 theta_1 phi_1 varphi_1 s3,
     reseed Ref.numpy (Some 42) Ref.fresh = (Ok tt, s0) /\
     first_three_draws Ref.numpy (stack_size 2) 4 0 1
       s0 theta_1 phi_1 varphi_1 s3 /\
     parameters_cvqnnlayers Ref.numpy 2 4 0 1 0 1 (Some 42) Ref.fresh
     = (Raise AttributeError, s3)) /\
  (exists s0 theta_1 phi_1 varphi_1 s3,
     reseed Ref.numpy (Some 42) Ref.fresh = (Ok tt, s0) /\
     first_three_draws Ref.numpy single_size 4 0 1
       s0 theta_1 phi_1 varphi_1 s3 /\
     parameters_cvqnnlayer Ref.numpy 4 0 1 0 1 (Some 42) Ref.fresh
     = (Raise AttributeError, s3)).
Proof.
  apply (call_raises_at_fourth_statement Ref.numpy 2 4 0 1 0 1 (Some 42)
           Ref.fresh ref_rnd_is_missing).
  - eexists. reflexivity.
  - apply ref_normal_serves; reflexivity.
  - apply ref_normal_serves; reflexivity.
  - apply ref_normal_serves; reflexivity.
  - apply ref_normal_serves; reflexivity.
Defined.

(** C7 (not met by the code).  The claim is about the arrays the two
    functions return.  For two layers and three modes, seeded with 42,
    neither returns: both raise [AttributeError], the stack after 18
    deviates (three arrays of shape (2, 3)), the single layer after 9. *)
Example two_layers_three_modes_return_nothing :
  parameters_cvqnnlayers Ref.numpy 2 3 0 1 0 1 (Some 42) Ref.fresh
  = (Raise AttributeError, {| Ref.word := 705377000; Ref.drawn := 18 |}) /\
  parameters_cvqnnlayer Ref.numpy 3 0 1 0 1 (Some 42) Ref.fresh
  = (Raise AttributeError, {| Ref.word := 1314989459; Ref.drawn := 9 |}).
Proof. split; vm_compute; reflexivity. Qed.

(** C10 (not met by the code).  For [n_modes = 0] the interaction count is
    0 and nothing is checked before sampling: the three first arrays are
    requested with a trailing dimension 0, right after the seeding.  But
    the call does not go on to accept the degenerate case: it raises
    [AttributeError] at the fourth statement, and the arrays of roles 5
    and 6 are never drawn. *)
Theorem zero_modes_reach_the_fourth_statement
    np n_layers umin umax mean std seed s :
  rnd_is_missing np -> seed_accepted np seed ->
  serves (np_normal np mean std) [n_layers; 0] ->
  serves (np_normal np mean std) [0] ->
  n_if 0 = 0 /\
  (exists s0 theta_1 s1 phi_1 s2 varphi_1 s3,
     reseed np seed s = (Ok tt, s0) /\
     np_normal np mean std [n_layers; 0] s0 = (Ok theta_1, s1) /\
     np_normal np mean std [n_layers; 0] s1 = (Ok phi_1, s2) /\
     np_normal np mean std [n_layers; 0] s2 = (Ok varphi_1, s3) /\
     parameters_cvqnnlayers np n_layers 0 umin umax mean std seed s
     = (Raise AttributeError, s3)) /\
  (exists s0 theta_1 s1 phi_1 s2 varphi_1 s3,
     reseed np seed s = (Ok tt, s0) /\
     np_normal np mean std [0] s0 = (Ok theta_1, s1) /\
     np_normal np mean std [0] s1 = (Ok phi_1, s2) /\
     np_normal np mean std [0] s2 = (Ok varphi_1, s3) /\
     parameters_cvqnnlayer np 0 umin umax mean std seed s
     = (Raise AttributeError, s3)).
Proof.
  intros Hrnd Hseed Hstack Hsingle. split; [reflexivity | split].
  - destruct (generate_stops_at_rnd np (stack_size n_layers) 0
                umin umax mean std seed s Hrnd Hseed Hstack Hstack)
      as (s0 & t1 & p1 & v1 & s3 & Hs0 & (s1 & s2 & H1 & H2 & H3) & Hrun).
    exists s0, t1, s1, p1, s2, v1, s3. rewrite layers_refines_table.
    repeat split; assumption.
  - destruct (generate_stops_at_rnd np single_size 0
                umin umax mean std seed s Hrnd Hseed Hsingle Hsingle)
      as (s0 & t1 & p1 & v1 & s3 & Hs0 & (s1 & s2 & H1 & H2 & H3) & Hrun).
    exists s0, t1, s1, p1, s2, v1, s3. rewrite layer_refines_table.
    repeat split; assumption.
Qed.

Lemma zero_modes_reach_the_fourth_statement_witness :
  n_if 0 = 0 /\
  (exists s0 theta_1 s1 phi_1 s2 varphi_1 s3,
     reseed Ref.numpy None Ref.fresh = (Ok tt, s0) /\
     np_normal Ref.numpy 0 1 [2; 0] s0 = (Ok theta_1, s1) /\
     np_normal Ref.numpy 0 1 [2; 0] s1 = (Ok phi_1, s2) /\
     np_normal Ref.numpy 0 1 [2; 0] s2 = (Ok varphi_1, s3) /\
     parameters_cvqnnlayers Ref.numpy 2 0 0 1 0 1 None Ref.fresh
     = (Raise AttributeError, s3)) /\
  (exists s0 theta_1 s1 phi_1 s2 varphi_1 s3,
     reseed Ref.numpy None Ref.fresh = (Ok tt, s0) /\
     np_normal Ref.numpy 0 1 [0] s0 = (Ok theta_1, s1) /\
     np_normal Ref.numpy 0 1 [0] s1 = (Ok phi_1, s2) /\
     np_normal Ref.numpy 0 1 [0] s2 = (Ok varphi_1, s3) /\
     parameters_cvqnnlayer Ref.numpy 0 0 1 0 1 None Ref.fresh
     = (Raise AttributeError, s3)).
Proof.
  apply (zero_modes_reach_the_fourth_statement Ref.numpy 2 0 1 0 1 None
           Ref.fresh ref_rnd_is_missing).
  - exact I.
  - apply ref_normal_serves; reflexivity.
  - apply ref_normal_serves; reflexivity.
Defined.

(** ** Failing after draws *)

Lemma ref_size_ok_one d :
  0 <= d -> 8 * Z.max 1 d < 9223372036854775808 -> Ref.size_ok [d] = true.
Proof.
  intros Hd Hb. unfold Ref.size_ok. cbn [forallb filter].
  rewrite (proj2 (Z.leb_le 0 d) Hd). cbn [andb]. apply Z.ltb_lt.
  destruct (d =? 0) eqn:Hz; cbn [negb size_product fold_right]; lia.
Qed.

Lemma ref_size_ok_two a d :
  0 < a -> 0 <= d -> 8 * (a * Z.max 1 d) < 9223372036854775808 ->
  Ref.size_ok [a; d] = true.
Proof.
  intros Ha Hd Hb. unfold Ref.size_ok. cbn [forallb filter].
  rewrite (proj2 (Z.leb_le 0 a) ltac:(lia)), (proj2 (Z.leb_le 0 d) Hd).
  cbn [andb]. apply Z.ltb_lt.
  assert ((a =? 0) = false) as -> by (apply Z.eqb_neq; lia).
  destruct (d =? 0) eqn:Hz; cbn [negb size_product fold_right].
  - apply Z.eqb_eq in Hz. subst d. rewrite Z.max_l in Hb by lia. exact Hb.
  - apply Z.eqb_neq in Hz. rewrite Z.max_r in Hb by lia.
    rewrite Z.mul_1_r. exact Hb.
Qed.

Lemma ref_seed_in_range v :
  0 <= v < 4294967296 ->
  Ref.seed v = Ok {| Ref.word := v mod Ref.modulus; Ref.drawn := 0 |}.
Proof.
  intros Hv. unfold Ref.seed.
  rewrite (proj2 (Z.leb_le 0 v)), (proj2 (Z.ltb_lt v 4294967296)) by lia.
  reflexivity.
Qed.

(** Deviates drawn by a seeded walk of the reference environment before it
    stops at the fourth statement. *)
Lemma ref_generate_drawn size_of n_modes umin umax mean std v s :
  0 <= v < 4294967296 ->
  Ref.scale_refused std = false ->
  Ref.size_ok (size_of (n_if n_modes)) = true ->
  Ref.size_ok (size_of n_modes) = true ->
  Forall (Z.le 0) (size_of (n_if n_modes)) ->
  Forall (Z.le 0) (size_of n_modes) ->
  exists s',
    generate Ref.numpy size_of n_modes umin umax mean std (Some v) s
    = (Raise AttributeError, s') /\
    Ref.drawn s'
    = 2 * size_product (size_of (n_if n_modes)) + size_product (size_of n_modes).
Proof.
  intros Hv Hscale Hpair Hmode Hpnn Hmnn.
  destruct (generate_stops_at_rnd Ref.numpy size_of n_modes umin umax mean std
              (Some v) s ref_rnd_is_missing
              (ex_intro _ _ (ref_seed_in_range v Hv))
              (ref_normal_serves mean std _ Hscale Hpair)
              (ref_normal_serves mean std _ Hscale Hmode))
    as (s0 & t1 & p1 & v1 & s3 & Hs0 & (s1 & s2 & H1 & H2 & H3) & Hrun).
  exists s3. split; [exact Hrun |].
  unfold reseed in Hs0. cbn [np_seed Ref.numpy] in Hs0.
  rewrite (ref_seed_in_range v Hv) in Hs0. injection Hs0 as <-.
  pose proof (ref_normal_drawn _ _ _ _ _ _ Hpnn H1) as D1.
  pose proof (ref_normal_drawn _ _ _ _ _ _ Hpnn H2) as D2.
  pose proof (ref_normal_drawn _ _ _ _ _ _ Hmnn H3) as D3.
  cbn [Ref.drawn] in D1. lia.
Qed.

(** C4 (not met by the code).  The claim has a call fail only before any
    sampling.  In the reference environment every seeded call with positive
    counts (of a size the sampler serves) fails at the fourth statement,
    after [2*n_if + n_modes] deviates per layer have been drawn: at least
    one, so the failure comes after sampling. *)
Theorem valid_call_fails_after_draws
    n_layers n_modes umin umax mean std v s :
  0 < n_layers -> 0 < n_modes ->
  8 * (n_layers * (n_modes * n_modes)) < 9223372036854775808 ->
  Ref.scale_refused std = false ->
  0 <= v < 4294967296 ->
  (exists s',
     parameters_cvqnnlayers Ref.numpy n_layers n_modes umin umax mean std
       (Some v) s
     = (Raise AttributeError, s') /\
     Ref.drawn s' = n_layers * (2 * n_if n_modes + n_modes) /\
     0 < Ref.drawn s') /\
  (exists s',
     parameters_cvqnnlayer Ref.numpy n_modes umin umax mean std (Some v) s
     = (Raise AttributeError, s') /\
     Ref.drawn s' = 2 * n_if n_modes + n_modes /\
     0 < Ref.drawn s').
Proof.
  intros Hl Hn Hcap Hscale Hv.
  pose proof (n_if_double n_modes) as Hd.
  assert (0 <= n_if n_modes) as Hif by nia.
  assert (Z.max 1 (n_if n_modes) <= n_modes * n_modes) as Hmp by nia.
  assert (Z.max 1 n_modes <= n_modes * n_modes) as Hmm by nia.
  assert (8 * (n_layers * Z.max 1 (n_if n_modes)) < 9223372036854775808)
    as Hcp.
  { pose proof (Z.mul_le_mono_nonneg_l _ _ n_layers ltac:(lia) Hmp). lia. }
  assert (8 * (n_layers * Z.max 1 n_modes) < 9223372036854775808) as Hcm.
  { pose proof (Z.mul_le_mono_nonneg_l _ _ n_layers ltac:(lia) Hmm). lia. }
  assert (n_modes * n_modes <= n_layers * (n_modes * n_modes)) as Hone by nia.
  split.
  - rewrite layers_refines_table.
    destruct (ref_generate_drawn (stack_size n_layers) n_modes
                umin umax mean std v s Hv Hscale
                (ref_size_ok_two n_layers (n_if n_modes) Hl Hif Hcp)
                (ref_size_ok_two n_layers n_modes Hl ltac:(lia) Hcm)
                ltac:(repeat constructor; lia)
                ltac:(repeat constructor; lia))
      as (s' & Hrun & Hdrawn).
    exists s'. split; [exact Hrun |].
    unfold stack_size in Hdrawn. cbn [size_product fold_right] in Hdrawn.
    split; nia.
  - rewrite layer_refines_table.
    destruct (ref_generate_drawn single_size n_modes
                umin umax mean std v s Hv Hscale
                (ref_size_ok_one (n_if n_modes) Hif ltac:(lia))
                (ref_size_ok_one n_modes ltac:(lia) ltac:(lia))
                ltac:(repeat constructor; lia)
                ltac:(repeat constructor; lia))
      as (s' & Hrun & Hdrawn).
    exists s'. split; [exact Hrun |].
    unfold single_size in Hdrawn. cbn [size_product fold_right] in Hdrawn.
    split; nia.
Qed.

Lemma valid_call_fails_after_draws_witness :
  (exists s',
     parameters_cvqnnlayers Ref.numpy 2 4 0 1 0 1 (Some 42) Ref.fresh
     = (Raise AttributeError, s') /\
     Ref.drawn s' = 2 * (2 * n_if 4 + 4) /\
     0 < Ref.drawn s') /\
  (exists s',
     parameters_cvqnnlayer Ref.numpy 4 0 1 0 1 (Some 42) Ref.fresh
     = (Raise AttributeError, s') /\
     Ref.drawn s' = 2 * n_if 4 + 4 /\
     0 < Ref.drawn s').
Proof.
  apply (valid_call_fails_after_draws 2 4 0 1 0 1 42 Ref.fresh).
  - lia.
  - lia.
  - lia.
  - reflexivity.
  - lia.
Defined.

(** ** The uniform roles *)

(** C5 (not met by the code).  Each function is the walk of the role
    table: a normal role is an array of [np.random.normal(mean, std)]
    itself, and a uniform role is [u * interval + uniform_min] for the
    array [u] that [np.random.rnd] returns.  That is what the claim
    describes, but [np.random] has no [rnd]: the draw of every uniform
    role raises [AttributeError], so no uniform array is ever built. *)
Theorem uniform_roles_call_the_missing_sampler
    np n_layers n_modes umin umax mean std seed s :
  parameters_cvqnnlayers np n_layers n_modes umin umax mean std seed s
  = generate np (stack_size n_layers) n_modes umin umax mean std seed s /\
  parameters_cvqnnlayer np n_modes umin umax mean std seed s
  = generate np single_size n_modes umin umax mean std seed s /\
  (forall size_of r, fst r = NormalD ->
     draw_role np size_of n_modes umin umax mean std r
     = np_normal np mean std (size_of (role_dim n_modes (snd r)))) /\
  (forall size_of r, fst r = UniformD ->
     draw_role np size_of n_modes umin umax mean std r
     = (u <- np_rnd np (size_of (role_dim n_modes (snd r))) ;;
        ret (ndarray_add (ndarray_mul u (umax - umin)%float) umin))%call) /\
  (rnd_is_missing np ->
   forall size_of r s1, fst r = UniformD ->
     draw_role np size_of n_modes umin umax mean std r s1
     = (Raise AttributeError, s1)).
Proof.
  split; [apply layers_refines_table |].
  split; [apply layer_refines_table |].
  split; [| split].
  - intros size_of r Hr. unfold draw_role. rewrite Hr. reflexivity.
  - intros size_of r Hr. unfold draw_role. rewrite Hr. reflexivity.
  - intros Hrnd size_of r s1 Hr. unfold draw_role. rewrite Hr.
    unfold bind. rewrite Hrnd. reflexivity.
Qed.

Lemma uniform_roles_call_the_missing_sampler_witness :
  draw_role Ref.numpy single_size 2 0 1 0 1 (UniformD, PerMode) Ref.fresh
  = (Raise AttributeError, Ref.fresh).
Proof.
  exact (proj2 (proj2 (proj2 (proj2
           (uniform_roles_call_the_missing_sampler Ref.numpy 1 2 0 1 0 1
              None Ref.fresh))))
           ref_rnd_is_missing single_size (UniformD, PerMode) Ref.fresh
           eq_refl).
Defined.

(** C6 (not met by the code).  The claim bounds the elements of the
    uniform arrays.  With bounds 1 and 2, two modes and seed 42, neither
    function gets to build one: both raise [AttributeError] at the
    statement that would. *)
Example bounded_arrays_are_never_built :
  parameters_cvqnnlayer Ref.numpy 2 1 2 0 1 (Some 42) Ref.fresh
  = (Raise AttributeError, {| Ref.word := 1668674806; Ref.drawn := 4 |}) /\
  is_ok (fst (parameters_cvqnnlayers Ref.numpy 1 2 1 2 0 1 (Some 42)
                Ref.fresh)) = false.
Proof. split; vm_compute; reflexivity. Qed.

(** The expression of the source in binary64, on its own: for the largest
    deviate below 1 and the bounds 1 and 2, [u * interval + uniform_min]
    rounds to 2, the upper bound itself. *)
Example scaled_deviate_can_reach_the_upper_bound :
  (0 <=? 0x1.fffffffffffffp-1)%float = true /\
  (0x1.fffffffffffffp-1 <? 1)%float = true /\
  data (ndarray_add
          (ndarray_mul {| shape := [1]; data := [0x1.fffffffffffffp-1%float] |}
             (2 - 1)%float) 1%float)
  = [2%float].
Proof. repeat split. Qed.

(** ** No validation of the counts *)

(** C2 does not hold as stated.  [n_modes = 0] is not a positive integer,
    yet the call does not fail with an invalid-argument error: it fails
    with the [AttributeError] that the call with [n_modes = 2] meets as
    well, and so does the stack for [n_layers = 0].  And an
    invalid-argument error is not reserved for bad counts: a seed that is
    refused raises one for [n_modes = 2]. *)
Lemma zero_counts_fail_like_valid_counts :
  parameters_cvqnnlayer Ref.numpy 0 0 1 0 1 None Ref.fresh
  = (Raise AttributeError, Ref.fresh) /\
  parameters_cvqnnlayers Ref.numpy 0 2 0 1 0 1 None Ref.fresh
  = (Raise AttributeError, Ref.fresh) /\
  fst (parameters_cvqnnlayer Ref.numpy 2 0 1 0 1 None Ref.fresh)
  = Raise AttributeError /\
  invalid_argument AttributeError = false /\
  parameters_cvqnnlayer Ref.numpy 2 0 1 0 1 (Some (-1)) Ref.fresh
  = (Raise ValueError, Ref.fresh) /\
  invalid_argument ValueError = true.
Proof. repeat split; vm_compute; reflexivity. Qed.

(** What a walk does with its counts, once the seeding has succeeded.  A
    size with a negative entry is refused by the sampler asked for it; any
    other walk is past its first three draws. *)
Lemma generate_counts np size_of n_modes umin umax mean std seed s s0 :
  reseed np seed s = (Ok tt, s0) ->
  refuses_negative (np_normal np mean std) ->
  (Exists (fun d => d < 0) (size_of (n_if n_modes)) ->
   exists e,
     np_normal np mean std (size_of (n_if n_modes)) s0 = (Raise e, s0) /\
     generate np size_of n_modes umin umax mean std seed s = (Raise e, s0)) /\
  (Exists (fun d => d < 0) (size_of n_modes) ->
   serves (np_normal np mean std) (size_of (n_if n_modes)) ->
   exists theta_1 s1 phi_1 s2 e,
     np_normal np mean std (size_of (n_if n_modes)) s0 = (Ok theta_1, s1) /\
     np_normal np mean std (size_of (n_if n_modes)) s1 = (Ok phi_1, s2) /\
     np_normal np mean std (size_of n_modes) s2 = (Raise e, s2) /\
     generate np size_of n_modes umin umax mean std seed s = (Raise e, s2)) /\
  (serves (np_normal np mean std) (size_of (n_if n_modes)) ->
   serves (np_normal np mean std) (size_of n_modes) ->
   exists theta_1 phi_1 varphi_1 s3,
     first_three_draws np size_of n_modes mean std
       s0 theta_1 phi_1 varphi_1 s3 /\
     generate np size_of n_modes umin umax mean std seed s
     = from_fourth_statement np size_of n_modes umin umax mean std
         theta_1 phi_1 varphi_1 s3).
Proof.
  intros Hs0 Href. split; [| split].
  - intros Hneg. destruct (Href _ s0 Hneg) as (e & H1).
    exists e. split; [exact H1 |].
    unfold generate, bind. rewrite Hs0, roles_split. cbn [mapM].
    unfold bind, draw_role. cbn [fst snd role_dim]. rewrite H1. reflexivity.
  - intros Hneg Hpair.
    destruct (Hpair s0) as (t1 & s1 & H1).
    destruct (Hpair s1) as (p1 & s2 & H2).
    destruct (Href _ s2 Hneg) as (e & H3).
    exists t1, s1, p1, s2, e.
    split; [exact H1 | split; [exact H2 | split; [exact H3 |]]].
    unfold generate, bind. rewrite Hs0, roles_split. cbn [mapM].
    unfold bind, draw_role. cbn [fst snd role_dim].
    rewrite H1, H2, H3. reflexivity.
  - intros Hpair Hmode.
    destruct (three_draws_exist np size_of n_modes mean std s0 Hpair Hmode)
      as (t1 & p1 & v1 & s3 & H3).
    exists t1, p1, v1, s3. split; [exact H3 |].
    exact (generate_after_three _ _ _ _ _ _ _ _ _ _ _ _ _ _ Hs0 H3).
Qed.

(** C2, amended.  Neither function checks [n_modes] or [n_layers].  After
    a seeding that succeeds, with a normal sampler that refuses a size
    with a negative entry before drawing: a negative [n_layers] fails the
    stack at its first sampler call with that sampler's exception; a
    negative [n_modes] fails either function at its third sampler call,
    after two draws, with that sampler's exception; and whenever the two
    sizes of the call are served, as they are for [n_modes = 0] and
    [n_layers = 0] as well as for positive counts, the three first arrays
    are drawn and the call is what is left of it from the fourth statement
    on. *)
Theorem counts_are_not_validated
    np n_layers n_modes umin umax mean std seed s :
  seed_accepted np seed ->
  refuses_negative (np_normal np mean std) ->
  exists s0,
    reseed np seed s = (Ok tt, s0) /\
    (n_layers < 0 ->
     exists e,
       np_normal np mean std [n_layers; n_if n_modes] s0 = (Raise e, s0) /\
       parameters_cvqnnlayers np n_layers n_modes umin umax mean std seed s
       = (Raise e, s0)) /\
    (n_modes < 0 ->
     serves (np_normal np mean std) [n_layers; n_if n_modes] ->
     exists theta_1 s1 phi_1 s2 e,
       np_normal np mean std [n_layers; n_if n_modes] s0 = (Ok theta_1, s1) /\
       np_normal np mean std [n_layers; n_if n_modes] s1 = (Ok phi_1, s2) /\
       np_normal np mean std [n_layers; n_modes] s2 = (Raise e, s2) /\
       parameters_cvqnnlayers np n_layers n_modes umin umax mean std seed s
       = (Raise e, s2)) /\
    (n_modes < 0 ->
     serves (np_normal np mean std) [n_if n_modes] ->
     exists theta_1 s1 phi_1 s2 e,
       np_normal np mean std [n_if n_modes] s0 = (Ok theta_1, s1) /\
       np_normal np mean std [n_if n_modes] s1 = (Ok phi_1, s2) /\
       np_normal np mean std [n_modes] s2 = (Raise e, s2) /\
       parameters_cvqnnlayer np n_modes umin umax mean std seed s
       = (Raise e, s2)) /\
    (serves (np_normal np mean std) [n_layers; n_if n_modes] ->
     serves (np_normal np mean std) [n_layers; n_modes] ->
     exists theta_1 phi_1 varphi_1 s3,
       first_three_draws np (stack_size n_layers) n_modes mean std
         s0 theta_1 phi_1 varphi_1 s3 /\
       parameters_cvqnnlayers np n_layers n_modes umin umax mean std seed s
       = from_fourth_statement np (stack_size n_layers) n_modes
           umin umax mean std theta_1 phi_1 varphi_1 s3) /\
    (serves (np_normal np mean std) [n_if n_modes] ->
     serves (np_normal np mean std) [n_modes] ->
     exists theta_1 phi_1 varphi_1 s3,
       first_three_draws np single_size n_modes mean std
         s0 theta_1 phi_1 varphi_1 s3 /\
       parameters_cvqnnlayer np n_modes umin umax mean std seed s
       = from_fourth_statement np single_size n_modes
           umin umax mean std theta_1 phi_1 varphi_1 s3).
Proof.
  intros Hseed Href.
  destruct (reseed_accepted np seed s Hseed) as (s0 & Hs0).
  exists s0. split; [exact Hs0 |].
  destruct (generate_counts np (stack_size n_layers) n_modes
              umin umax mean std seed s s0 Hs0 Href) as (Sl & Sm & Sok).
  destruct (generate_counts np single_size n_modes
              umin umax mean std seed s s0 Hs0 Href) as (_ & Lm & Lok).
  rewrite layers_refines_table, layer_refines_table.
  split; [| split; [| split; [| split]]].
  - intros Hl. apply Sl. left. exact Hl.
  - intros Hn. apply Sm. right. left. exact Hn.
  - intros Hn. apply Lm. left. exact Hn.
  - exact Sok.
  - exact Lok.
Qed.

Lemma counts_are_not_validated_witness :
  exists s0,
    reseed Ref.numpy None Ref.fresh = (Ok tt, s0) /\
    (exists theta_1 phi_1 varphi_1 s3,
       first_three_draws Ref.numpy (stack_size 0) 3 0 1
         s0 theta_1 phi_1 varphi_1 s3 /\
       parameters_cvqnnlayers Ref.numpy 0 3 0 1 0 1 None Ref.fresh
       = from_fourth_statement Ref.numpy (stack_size 0) 3
           0 1 0 1 theta_1 phi_1 varphi_1 s3) /\
    (exists theta_1 s1 phi_1 s2 e,
       np_normal Ref.numpy 0 1 [n_if (-3)] s0 = (Ok theta_1, s1) /\
       np_normal Ref.numpy 0 1 [n_if (-3)] s1 = (Ok phi_1, s2) /\
       np_normal Ref.numpy 0 1 [-3] s2 = (Raise e, s2) /\
       parameters_cvqnnlayer Ref.numpy (-3) 0 1 0 1 None Ref.fresh
       = (Raise e, s2)).
Proof.
  destruct (counts_are_not_validated Ref.numpy 0 3 0 1 0 1 None Ref.fresh I
              (ref_normal_refuses_negative 0 1))
    as (s0 & Hs0 & _ & _ & _ & Hzero & _).
  destruct (counts_are_not_validated Ref.numpy 0 (-3) 0 1 0 1 None Ref.fresh I
              (ref_normal_refuses_negative 0 1))
    as (s0' & Hs0' & _ & _ & Hneg & _).
  exists s0. split; [exact Hs0 | split].
  - apply Hzero; apply ref_normal_serves; reflexivity.
  - rewrite Hs0 in Hs0'. injection Hs0' as <-.
    apply Hneg; [lia | apply ref_normal_serves; reflexivity].
Defined.

(** ** Seeding *)

(** C3.  A call with a seed is the role table walked from exactly the
    state that [np.random.seed] installs for that seed: the reseeding comes
    before any draw, and the state the generator was in before the call
    plays no part.  If the seed is refused, the call is that exception and
    the generator is untouched.  Hence two calls with the same seed and the
    same other arguments have the same outcome, whatever state each starts
    in, in particular when the second starts where the first ended. *)
Theorem seeded_call_runs_from_the_seeded_state
    np n_layers n_modes umin umax mean std v :
  (forall s,
     match np_seed np v with
     | Ok s0 =>
         parameters_cvqnnlayers np n_layers n_modes umin umax mean std
           (Some v) s
         = mapM (draw_role np (stack_size n_layers) n_modes
                   umin umax mean std) roles s0 /\
         parameters_cvqnnlayer np n_modes umin umax mean std (Some v) s
         = mapM (draw_role np single_size n_modes umin umax mean std)
             roles s0
     | Raise e =>
         parameters_cvqnnlayers np n_layers n_modes umin umax mean std
           (Some v) s
         = (Raise e, s) /\
         parameters_cvqnnlayer np n_modes umin umax mean std (Some v) s
         = (Raise e, s)
     end) /\
  (forall s s',
     fst (parameters_cvqnnlayers np n_layers n_modes umin umax mean std
            (Some v) s)
     = fst (parameters_cvqnnlayers np n_layers n_modes umin umax mean std
              (Some v) s') /\
     fst (parameters_cvqnnlayer np n_modes umin umax mean std (Some v) s)
     = fst (parameters_cvqnnlayer np n_modes umin umax mean std
              (Some v) s')) /\
  (forall s,
     let first :=
       parameters_cvqnnlayers np n_layers n_modes umin umax mean std
         (Some v) s in
     fst (parameters_cvqnnlayers np n_layers n_modes umin umax mean std
            (Some v) (snd first))
     = fst first) /\
  (forall s,
     let first :=
       parameters_cvqnnlayer np n_modes umin umax mean std (Some v) s in
     fst (parameters_cvqnnlayer np n_modes umin umax mean std
            (Some v) (snd first))
     = fst first).
Proof.
  split; [| split; [| split]].
  - intros s.
    pose proof (generate_seeded np (stack_size n_layers) n_modes
                  umin umax mean std v s) as Hstack.
    pose proof (generate_seeded np single_size n_modes
                  umin umax mean std v s) as Hsingle.
    rewrite layers_refines_table, layer_refines_table.
    destruct (np_seed np v) as [s0 | e]; split; assumption.
  - intros s s'. split;
      [apply layers_forgets_state | apply layer_forgets_state].
  - intros s first. apply layers_forgets_state.
  - intros s first. apply layer_forgets_state.
Qed.

(** ** One layer of the stack against the single layer *)

(** C8.  With samplers that treat a request of shape [(1, d)] as one of
    shape [(d,)], the stack called with [n_layers = 1] and the single layer
    called with the same seed and the same other arguments return the same
    elements at every position, whatever state the generator was in before
    either call. *)
Theorem one_layer_stack_equals_single
    np n_modes umin umax mean std v s s' :
  (forall loc sc, leading_one_flat (np_normal np loc sc)) ->
  leading_one_flat (np_rnd np) ->
  map_result (map ravel)
    (fst (parameters_cvqnnlayers np 1 n_modes umin umax mean std (Some v) s))
  = map_result (map ravel)
      (fst (parameters_cvqnnlayer np n_modes umin umax mean std (Some v) s')).
Proof.
  intros Hnormal Hrnd.
  rewrite (layers_forgets_state np 1 n_modes umin umax mean std v s s').
  rewrite layers_refines_table, layer_refines_table.
  unfold generate, bind.
  destruct (reseed np (Some v) s') as [[[] | e] s0]; [| reflexivity].
  apply mapM_ravel. intros r s1.
  apply draw_role_leading_one; assumption.
Qed.

Lemma one_layer_stack_equals_single_witness :
  map_result (map ravel)
    (fst (parameters_cvqnnlayers Ref.numpy 1 3 0 1 0 1 (Some 7) Ref.fresh))
  = map_result (map ravel)
      (fst (parameters_cvqnnlayer Ref.numpy 3 0 1 0 1 (Some 7)
              {| Ref.word := 99; Ref.drawn := 5 |})).
Proof.
  apply (one_layer_stack_equals_single Ref.numpy 3 0%float 1%float 0%float 1%float 7
           Ref.fresh {| Ref.word := 99; Ref.drawn := 5 |}).
  - intros loc sc. apply ref_normal_leading_one_flat.
  - exact ref_rnd_leading_one_flat.
Defined.

(** ** The interaction count *)

(** C9.  For every integer [n_modes], positive or not, the product
    [n_modes*(n_modes-1)] is even, so the floor division by 2 in the
    interaction count is exact. *)
Theorem interaction_count_exact (n_modes : Z) :
  Z.even (n_modes * (n_modes - 1)) = true /\
  (n_modes * (n_modes - 1)) mod 2 = 0 /\
  2 * n_if n_modes = n_modes * (n_modes - 1).
Proof.
  pose proof (consecutive_product_even n_modes) as Hmod.
  repeat split.
  - rewrite Zmod_even in Hmod.
    destruct (Z.even (n_modes * (n_modes - 1))); [reflexivity | discriminate].
  - exact Hmod.
  - unfold n_if. symmetry. apply Z.div_exact; [lia | exact Hmod].
Qed.

(** * Further properties of the two functions *)

(** ** An environment without [np.random.rnd] *)

(** When [np.random] has no attribute [rnd], no call of either function
    returns, whatever the arguments; and a call whose seeding and first
    three normal draws succeed raises [AttributeError] at the fourth
    statement, leaving the generator in the state those three draws
    left. *)
Theorem without_rnd_no_call_returns
    np n_layers n_modes umin umax mean std seed s :
  rnd_is_missing np ->
  is_ok (fst (parameters_cvqnnlayers np n_layers n_modes umin umax mean std
                seed s)) = false /\
  is_ok (fst (parameters_cvqnnlayer np n_modes umin umax mean std seed s))
  = false /\
  (forall s0 theta_1 phi_1 varphi_1 s3,
     reseed np seed s = (Ok tt, s0) ->
     first_three_draws np (stack_size n_layers) n_modes mean std
       s0 theta_1 phi_1 varphi_1 s3 ->
     parameters_cvqnnlayers np n_layers n_modes umin umax mean std seed s
     = (Raise AttributeError, s3)) /\
  (forall s0 theta_1 phi_1 varphi_1 s3,
     reseed np seed s = (Ok tt, s0) ->
     first_three_draws np single_size n_modes mean std
       s0 theta_1 phi_1 varphi_1 s3 ->
     parameters_cvqnnlayer np n_modes umin umax mean std seed s
     = (Raise AttributeError, s3)).
Proof.
  intros Hrnd. rewrite layers_refines_table, layer_refines_table.
  split; [apply generate_never_returns; exact Hrnd |].
  split; [apply generate_never_returns; exact Hrnd |].
  split; intros s0 t1 p1 v1 s3 Hs0 H3;
    rewrite (generate_after_three _ _ _ _ _ _ _ _ _ _ _ _ _ _ Hs0 H3);
    apply fourth_statement_raises; exact Hrnd.
Qed.

Lemma without_rnd_no_call_returns_witness :
  is_ok (fst (parameters_cvqnnlayers Ref.numpy 2 2 0 1 0 1 (Some 42)
                Ref.fresh)) = false /\
  is_ok (fst (parameters_cvqnnlayer Ref.numpy 2 0 1 0 1 (Some 42) Ref.fresh))
  = false /\
  parameters_cvqnnlayer Ref.numpy 2 0 1 0 1 (Some 42) Ref.fresh
  = (Raise AttributeError, {| Ref.word := 1668674806; Ref.drawn := 4 |}).
Proof.
  destruct (without_rnd_no_call_returns Ref.numpy 2 2 0 1 0 1 (Some 42)
              Ref.fresh ref_rnd_is_missing) as (Hstack & Hsingle & _ & Hstop).
  split; [exact Hstack | split; [exact Hsingle |]].
  eapply Hstop.
  - reflexivity.
  - eexists _, _.
    split; [vm_compute; reflexivity |].
    split; [vm_compute; reflexivity |].
    vm_compute. reflexivity.
Defined.

(** ** The interaction count on all integers *)

(** The interaction count is never negative, also for a negative
    [n_modes], and it is 0 exactly for [n_modes = 0] and [n_modes = 1]. *)
Theorem interaction_count_sign (n_modes : Z) :
  0 <= n_if n_modes /\
  (n_if n_modes = 0 <-> n_modes = 0 \/ n_modes = 1) /\
  n_if (1 - n_modes) = n_if n_modes.
Proof.
  pose proof (n_if_double n_modes) as Hd.
  pose proof (n_if_double (1 - n_modes)) as Hd'.
  repeat split.
  - nia.
  - intros Hz. rewrite Hz in Hd. nia.
  - intros [-> | ->]; reflexivity.
  - nia.
Qed.

(** One more mode adds as many interaction pairs as there were modes; with
    it, the count for [n_modes >= 0] is the sum [0 + 1 + ... + (n_modes-1)]. *)
Theorem interaction_count_step (n_modes : Z) :
  n_if (n_modes + 1) = n_if n_modes + n_modes /\
  (0 <= n_modes ->
   n_if n_modes
   = fold_right Z.add 0 (map Z.of_nat (seq 0 (Z.to_nat n_modes)))).
Proof.
  assert (forall n, n_if (n + 1) = n_if n + n) as Hstep.
  { intros n. pose proof (n_if_double n). pose proof (n_if_double (n + 1)).
    nia. }
  split; [apply Hstep |].
  intros Hn. rewrite <- (Z2Nat.id n_modes Hn) at 1.
  induction (Z.to_nat n_modes) as [| k IH]; [reflexivity |].
  rewrite Nat2Z.inj_succ, <- Z.add_1_r, Hstep, IH.
  rewrite seq_S, map_app, fold_right_app. cbn [map fold_right Nat.add].
  rewrite (fold_add_shift _ (Z.of_nat k + 0)). lia.
Qed.

Lemma interaction_count_step_witness :
  n_if 4 = fold_right Z.add 0 (map Z.of_nat (seq 0 (Z.to_nat 4))).
Proof. apply (proj2 (interaction_count_step 4)). lia. Defined.

(** ** Negative counts *)

(** A negative [n_modes] is not refused at the door.  Its interaction count
    is positive, so with a normal sampler that serves the first size of the
    call and refuses a size with a negative entry, the first two normal
    draws are made, and the call fails at the third, in the state those two
    draws left. *)
Theorem negative_modes_fail_at_third_draw
    np n_layers n_modes umin umax mean std seed s :
  serves (np_normal np mean std) [n_layers; n_if n_modes] ->
  serves (np_normal np mean std) [n_if n_modes] ->
  refuses_negative (np_normal np mean std) ->
  n_modes < 0 -> seed_accepted np seed ->
  exists s0, reseed np seed s = (Ok tt, s0) /\
  (exists theta_1 s1 phi_1 s2 e,
     np_normal np mean std [n_layers; n_if n_modes] s0 = (Ok theta_1, s1) /\
     np_normal np mean std [n_layers; n_if n_modes] s1 = (Ok phi_1, s2) /\
     parameters_cvqnnlayers np n_layers n_modes umin umax mean std seed s
     = (Raise e, s2)) /\
  (exists theta_1 s1 phi_1 s2 e,
     np_normal np mean std [n_if n_modes] s0 = (Ok theta_1, s1) /\
     np_normal np mean std [n_if n_modes] s1 = (Ok phi_1, s2) /\
     parameters_cvqnnlayer np n_modes umin umax mean std seed s
     = (Raise e, s2)).
Proof.
  intros Hstack Hsingle Href Hn Hseed.
  destruct (reseed_accepted np seed s Hseed) as (s0 & Hs0).
  exists s0. split; [exact Hs0 | split].
  - destruct (Hstack s0) as (t1 & s1 & H1).
    destruct (Hstack s1) as (p1 & s2 & H2).
    destruct (Href [n_layers; n_modes] s2 ltac:(right; left; exact Hn))
      as (e & H3).
    exists t1, s1, p1, s2, e. split; [exact H1 | split; [exact H2 |]].
    unfold parameters_cvqnnlayers, bind. rewrite Hs0, H1, H2, H3. reflexivity.
  - destruct (Hsingle s0) as (t1 & s1 & H1).
    destruct (Hsingle s1) as (p1 & s2 & H2).
    destruct (Href [n_modes] s2 ltac:(left; exact Hn)) as (e & H3).
    exists t1, s1, p1, s2, e. split; [exact H1 | split; [exact H2 |]].
    unfold parameters_cvqnnlayer, bind. rewrite Hs0, H1, H2, H3. reflexivity.
Qed.

Lemma negative_modes_fail_at_third_draw_witness :
  exists s0, reseed Ref.numpy (Some 42) Ref.fresh = (Ok tt, s0) /\
  (exists theta_1 s1 phi_1 s2 e,
     np_normal Ref.numpy 0 1 [2; n_if (-3)] s0 = (Ok theta_1, s1) /\
     np_normal Ref.numpy 0 1 [2; n_if (-3)] s1 = (Ok phi_1, s2) /\
     parameters_cvqnnlayers Ref.numpy 2 (-3) 0 1 0 1 (Some 42) Ref.fresh
     = (Raise e, s2)) /\
  (exists theta_1 s1 phi_1 s2 e,
     np_normal Ref.numpy 0 1 [n_if (-3)] s0 = (Ok theta_1, s1) /\
     np_normal Ref.numpy 0 1 [n_if (-3)] s1 = (Ok phi_1, s2) /\
     parameters_cvqnnlayer Ref.numpy (-3) 0 1 0 1 (Some 42) Ref.fresh
     = (Raise e, s2)).
Proof.
  apply (negative_modes_fail_at_third_draw Ref.numpy 2 (-3)
           0 1 0 1 (Some 42) Ref.fresh).
  - apply ref_normal_serves; reflexivity.
  - apply ref_normal_serves; reflexivity.
  - apply ref_normal_refuses_negative.
  - lia.
  - eexists. reflexivity.
Defined.

(** A negative [n_layers] fails the stack at its first draw, whatever
    [n_modes] is: nothing is drawn, and the generator is left in the state
    the seeding installed (or in the state of before the call when no seed
    is given). *)
Theorem negative_layers_fail_at_first_draw
    np n_layers n_modes umin umax mean std seed s :
  (forall loc sc, refuses_negative (np_normal np loc sc)) ->
  n_layers < 0 -> seed_accepted np seed ->
  exists s0 e,
    reseed np seed s = (Ok tt, s0) /\
    parameters_cvqnnlayers np n_layers n_modes umin umax mean std seed s
    = (Raise e, s0).
Proof.
  intros Href Hl Hseed.
  destruct (reseed_accepted np seed s Hseed) as (s0 & Hs0).
  destruct (Href mean std [n_layers; n_if n_modes] s0
              ltac:(left; exact Hl)) as (e & H1).
  exists s0, e. split; [exact Hs0 |].
  unfold parameters_cvqnnlayers, bind. rewrite Hs0, H1. reflexivity.
Qed.

Lemma negative_layers_fail_at_first_draw_witness :
  exists s0 e,
    reseed Ref.numpy None Ref.fresh = (Ok tt, s0) /\
    parameters_cvqnnlayers Ref.numpy (-1) 2 0 1 0 1 None Ref.fresh
    = (Raise e, s0).
Proof.
  apply (negative_layers_fail_at_first_draw Ref.numpy (-1) 2
           0%float 1%float 0%float 1%float None Ref.fresh).
  - intros loc sc. apply ref_normal_refuses_negative.
  - lia.
  - exact I.
Defined.

(** ** Seeding and calling *)

(** A call with a seed that is taken is the call without a seed made in the
    state the seeding installs; a call with a seed that is refused raises
    the seeding's exception, whatever the counts are, and leaves the
    generator as it was. *)
Theorem seeded_call_is_seed_then_call
    np n_layers n_modes umin umax mean std v s :
  (forall s0, np_seed np v = Ok s0 ->
     parameters_cvqnnlayers np n_layers n_modes umin umax mean std (Some v) s
     = parameters_cvqnnlayers np n_layers n_modes umin umax mean std None s0
     /\
     parameters_cvqnnlayer np n_modes umin umax mean std (Some v) s
     = parameters_cvqnnlayer np n_modes umin umax mean std None s0) /\
  (forall e, np_seed np v = Raise e ->
     parameters_cvqnnlayers np n_layers n_modes umin umax mean std (Some v) s
     = (Raise e, s) /\
     parameters_cvqnnlayer np n_modes umin umax mean std (Some v) s
     = (Raise e, s)).
Proof.
  split.
  - intros s0 Hv.
    unfold parameters_cvqnnlayers, parameters_cvqnnlayer, bind, reseed.
    rewrite Hv. split; reflexivity.
  - intros e Hv.
    unfold parameters_cvqnnlayers, parameters_cvqnnlayer, bind, reseed.
    rewrite Hv. split; reflexivity.
Qed.

Lemma seeded_call_is_seed_then_call_witness :
  (parameters_cvqnnlayers Ref.numpy 2 3 0 1 0 1 (Some 42) Ref.fresh
   = parameters_cvqnnlayers Ref.numpy 2 3 0 1 0 1 None
       {| Ref.word := 42; Ref.drawn := 0 |}) /\
  (parameters_cvqnnlayer Ref.numpy (-3) 0 1 0 1 (Some (-1)) Ref.fresh
   = (Raise ValueError, Ref.fresh)).
Proof.
  split.
  - exact (proj1 (proj1 (seeded_call_is_seed_then_call Ref.numpy 2 3
                           0%float 1%float 0%float 1%float 42 Ref.fresh) _ eq_refl)).
  - exact (proj2 (proj2 (seeded_call_is_seed_then_call Ref.numpy 2 (-3)
                           0%float 1%float 0%float 1%float (-1) Ref.fresh) _ eq_refl)).
Defined.

(** ** What the uniform bounds do not touch *)

